(** * Calculadora IRRF 2025/2026: embedding and verified properties

    Shallow embedding of the computational core of
    [calculadora_irrf_2025_2026_corrigida.py]: the INSS contribution, the
    progressive income tax, the 2026 reform rebate and the four scenario
    calculators.  Monetary amounts are exact rationals ([Q]); the decimal
    literals of the source are kept as they are written.  The dictionaries
    returned by the calculators are association lists from field name to
    value, in the order of the source's dict literals.  The three reporting
    functions are computations that extend the list of printed lines and
    may raise on a missing key; the rendering of a number under its format
    is kept symbolic. *)

From Stdlib Require Import QArith Qminmax Qabs Lqa ZArith String List Bool.
Import ListNotations.

Local Open Scope Q_scope.

(** ** Python primitives used by the source *)

Module Py.

(** [a <= b] as the condition of an [if]. *)
Definition le (a b : Q) : bool := Qle_bool a b.

(** [a > b], that is [b < a]: the negation of [a <= b] on a total order. *)
Definition gt (a b : Q) : bool := negb (Qle_bool a b).

(** [a < b]. *)
Definition lt (a b : Q) : bool := negb (Qle_bool b a).

(** Built-in [min(a, b)]: the first argument is kept unless the second is
    strictly smaller. *)
Definition min (a b : Q) : Q := if lt b a then b else a.

(** Built-in [max(a, b)]: the first argument is kept unless the second is
    strictly greater. *)
Definition max (a b : Q) : Q := if gt b a then b else a.

End Py.

(** ** Bracket tax engine *)

(** The formula of each branch of [calcular_inss], in source order. *)
Definition inss_faixa1 (salario : Q) : Q :=
  salario * 0.075.

Definition inss_faixa2 (salario : Q) : Q :=
  let inss1 := 1412.00 * 0.075 in
  let inss2 := (salario - 1412.00) * 0.09 in
  inss1 + inss2.

Definition inss_faixa3 (salario : Q) : Q :=
  let inss1 := 1412.00 * 0.075 in
  let inss2 := (2666.68 - 1412.00) * 0.09 in
  let inss3 := (salario - 2666.68) * 0.12 in
  inss1 + inss2 + inss3.

Definition inss_faixa4 (salario : Q) : Q :=
  let inss1 := 1412.00 * 0.075 in
  let inss2 := (2666.68 - 1412.00) * 0.09 in
  let inss3 := (4000.03 - 2666.68) * 0.12 in
  let inss4 := (salario - 4000.03) * 0.14 in
  inss1 + inss2 + inss3 + inss4.

Definition inss_teto : Q :=
  let inss1 := 1412.00 * 0.075 in
  let inss2 := (2666.68 - 1412.00) * 0.09 in
  let inss3 := (4000.03 - 2666.68) * 0.12 in
  let inss4 := (7786.02 - 4000.03) * 0.14 in
  inss1 + inss2 + inss3 + inss4.

Definition calcular_inss (salario : Q) : Q :=
  if Py.le salario 1412.00 then inss_faixa1 salario
  else if Py.le salario 2666.68 then inss_faixa2 salario
  else if Py.le salario 4000.03 then inss_faixa3 salario
  else if Py.le salario 7786.02 then inss_faixa4 salario
  else inss_teto.

Definition calcular_ir_progressivo (base : Q) : Q :=
  if Py.le base 2259.20 then 0
  else if Py.le base 2826.65 then (base - 2259.20) * 0.075
  else if Py.le base 3751.05 then
    (2826.65 - 2259.20) * 0.075 + (base - 2826.65) * 0.15
  else if Py.le base 4664.68 then
    (2826.65 - 2259.20) * 0.075 + (3751.05 - 2826.65) * 0.15 +
    (base - 3751.05) * 0.225
  else
    (2826.65 - 2259.20) * 0.075 + (3751.05 - 2826.65) * 0.15 +
    (4664.68 - 3751.05) * 0.225 + (base - 4664.68) * 0.275.

(** ** Reform adjustment *)

Definition calcular_reducao_reforma_2026 (base ir_calculado : Q) : Q :=
  if Py.le base 5000.00 then Py.min 312.89 ir_calculado
  else if Py.le base 7000.00 then
    let reducao := 1095.11 - (0.156445 * base) in
    let reducao := Py.max 0 reducao in
    let reducao := Py.min reducao ir_calculado in
    reducao
  else 0.

(** ** Result records *)

(** A value stored in a result dictionary: the filing type is a string,
    every other field is an amount. *)
Inductive valor : Type :=
| Texto (s : string)
| Num (q : Q).

(** A result dictionary, keyed by field name. *)
Definition resultado : Type := list (string * valor).

Fixpoint get (r : resultado) (k : string) : option valor :=
  match r with
  | [] => None
  | (k', v) :: r' => if String.eqb k k' then Some v else get r' k
  end.

(** [r[k]] for a numeric field; [None] when the key is absent or holds a
    string. *)
Definition campo (r : resultado) (k : string) : option Q :=
  match get r k with
  | Some (Num q) => Some q
  | _ => None
  end.

Definition chaves (r : resultado) : list string := map fst r.

(** ** Scenario calculators *)

Definition calcular_ir_2025_completo
    (salario_bruto contribuicao_previdencia despesa_saude : Q)
    (dependentes : Z) : resultado :=
  let inss := calcular_inss salario_bruto in
  let base_calculo := salario_bruto - inss - contribuicao_previdencia in
  let deducoes := despesa_saude + (inject_Z dependentes * 189.59) in
  let base_tributavel := base_calculo - deducoes in
  let ir_devido := calcular_ir_progressivo base_tributavel in
  [ ("tipo", Texto "Completa");
    ("salario_bruto", Num salario_bruto);
    ("inss", Num inss);
    ("previdencia", Num contribuicao_previdencia);
    ("deducoes_legais", Num deducoes);
    ("base_calculo", Num base_calculo);
    ("base_tributavel", Num base_tributavel);
    ("ir_devido", Num ir_devido);
    ("reducao", Num 0);
    ("ir_final", Num ir_devido) ]%string.

Definition calcular_ir_2025_simplificado
    (salario_bruto contribuicao_previdencia : Q) : resultado :=
  let inss := calcular_inss salario_bruto in
  let base_calculo := salario_bruto - inss - contribuicao_previdencia in
  let teto_desconto := 16754.34 in
  let desconto := base_calculo * 0.20 in
  let desconto :=
    if Py.gt desconto teto_desconto then teto_desconto else desconto in
  let base_tributavel := base_calculo - desconto in
  let ir_devido := calcular_ir_progressivo base_tributavel in
  [ ("tipo", Texto "Simplificada");
    ("salario_bruto", Num salario_bruto);
    ("inss", Num inss);
    ("previdencia", Num contribuicao_previdencia);
    ("desconto_simplificado", Num desconto);
    ("base_calculo", Num base_calculo);
    ("base_tributavel", Num base_tributavel);
    ("ir_devido", Num ir_devido);
    ("reducao", Num 0);
    ("ir_final", Num ir_devido) ]%string.

Definition calcular_ir_2026_completo
    (salario_bruto contribuicao_previdencia despesa_saude : Q)
    (dependentes : Z) : resultado :=
  let inss := calcular_inss salario_bruto in
  let base_calculo := salario_bruto - inss - contribuicao_previdencia in
  let deducoes := despesa_saude + (inject_Z dependentes * 189.59) in
  let base_tributavel := base_calculo - deducoes in
  let ir_calculado := calcular_ir_progressivo base_tributavel in
  let reducao := calcular_reducao_reforma_2026 base_tributavel ir_calculado in
  let ir_final := ir_calculado - reducao in
  [ ("tipo", Texto "Completa");
    ("salario_bruto", Num salario_bruto);
    ("inss", Num inss);
    ("previdencia", Num contribuicao_previdencia);
    ("deducoes_legais", Num deducoes);
    ("base_calculo", Num base_calculo);
    ("base_tributavel", Num base_tributavel);
    ("ir_calculado", Num ir_calculado);
    ("reducao", Num reducao);
    ("ir_final", Num ir_final) ]%string.

Definition calcular_ir_2026_simplificado
    (salario_bruto contribuicao_previdencia : Q) : resultado :=
  let inss := calcular_inss salario_bruto in
  let base_calculo := salario_bruto - inss - contribuicao_previdencia in
  let teto_desconto := 16754.34 in
  let desconto := base_calculo * 0.20 in
  let desconto :=
    if Py.gt desconto teto_desconto then teto_desconto else desconto in
  let base_tributavel := base_calculo - desconto in
  let ir_calculado := calcular_ir_progressivo base_tributavel in
  let reducao := calcular_reducao_reforma_2026 base_tributavel ir_calculado in
  let ir_final := ir_calculado - reducao in
  [ ("tipo", Texto "Simplificada");
    ("salario_bruto", Num salario_bruto);
    ("inss", Num inss);
    ("previdencia", Num contribuicao_previdencia);
    ("desconto_simplificado", Num desconto);
    ("base_calculo", Num base_calculo);
    ("base_tributavel", Num base_tributavel);
    ("ir_calculado", Num ir_calculado);
    ("reducao", Num reducao);
    ("ir_final", Num ir_final) ]%string.

(** The dictionary [r] without the keys listed in [ks], order kept:
    [{k: v for k, v in r.items() if k not in ks}]. *)
Definition sem_campos (ks : list string) (r : resultado) : resultado :=
  filter (fun kv => negb (existsb (String.eqb (fst kv)) ks)) r.

(** The fields that tell the year apart: the tax before the rebate (named
    [ir_devido] in 2025 and [ir_calculado] in 2026), the rebate and the
    final tax. *)
Definition campos_do_ano : list string :=
  [ "ir_devido"; "ir_calculado"; "reducao"; "ir_final" ]%string.

(** What a simplified calculator's result [r] must hold for the base
    [base_calculo] it was computed from: the discount is the smaller of
    20%% of the base and 16754.34, the taxable base is the base less the
    discount, and the field [campo_ir] is the progressive tax on it. *)
Definition desconto_conforme
    (r : resultado) (campo_ir : string) (base_calculo : Q) : Prop :=
  exists desconto,
    campo r "base_calculo" = Some base_calculo /\
    campo r "desconto_simplificado" = Some desconto /\
    desconto == Qmin (0.20 * base_calculo) 16754.34 /\
    campo r "base_tributavel" = Some (base_calculo - desconto) /\
    campo r campo_ir =
      Some (calcular_ir_progressivo (base_calculo - desconto)) /\
    (16754.34 < 0.20 * base_calculo -> desconto = 16754.34).

(** How a 2026 result [r26] must relate to the 2025 result [r25] of the
    same arguments: same tax before the rebate, final tax lowered by the
    rebate computed on the taxable base, every other field unchanged. *)
Definition difere_so_pela_reducao (r26 r25 : resultado) : Prop :=
  exists ir reducao base,
    campo r26 "ir_calculado" = Some ir /\
    campo r25 "ir_devido" = Some ir /\
    campo r25 "ir_final" = Some ir /\
    campo r26 "base_tributavel" = Some base /\
    reducao = calcular_reducao_reforma_2026 base ir /\
    campo r26 "reducao" = Some reducao /\
    campo r26 "ir_final" = Some (ir - reducao) /\
    sem_campos campos_do_ano r26 = sem_campos campos_do_ano r25 /\
    Forall (fun k => get r26 k <> None /\ get r26 k = get r25 k)
      (chaves (sem_campos campos_do_ano r26)).

(** [r1[k] <= r2[k]], both fields present and numeric. *)
Definition campo_le (k : string) (r1 r2 : resultado) : Prop :=
  exists a b, campo r1 k = Some a /\ campo r2 k = Some b /\ a <= b.


(** ** Console output *)

(** The newline character, written [\n] in the source. *)
Definition nl : string := String (Ascii.ascii_of_nat 10) EmptyString.

(** [s * n] on strings. *)
Fixpoint repete (s : string) (n : nat) : string :=
  match n with
  | O => EmptyString
  | S n' => (s ++ repete s n')%string
  end.

(** A piece of a printed line: literal text, or a value together with the
    format it is printed with.  The rendering of numbers is left to the
    format: [Moeda q] stands for [{q:,.2f}], [MoedaDir n q] for
    [{q:>n,.2f}] and [Esq n s] for [{s:<n}]. *)
Inductive fragmento : Type :=
| Lit (s : string)
| Moeda (q : Q)
| MoedaDir (largura : nat) (q : Q)
| Esq (largura : nat) (s : string).

(** The argument of one call of [print]. *)
Definition linha : Type := list fragmento.

(** What reading a field can raise: the key is absent, or the value under
    it is not a number and cannot be formatted or subtracted. *)
Inductive excecao : Type :=
| KeyError (k : string)
| NaoNumerico (k : string).

(** A computation that prints: it extends the lines printed so far and
    either raises or returns. *)
Definition Saida (A : Type) : Type :=
  list linha -> list linha * (excecao + A).

Definition ret {A : Type} (a : A) : Saida A :=
  fun out => (out, inr a).

Definition bind {A B : Type} (c : Saida A) (f : A -> Saida B) : Saida B :=
  fun out =>
    match c out with
    | (out', inl e) => (out', inl e)
    | (out', inr a) => f a out'
    end.

Notation "x <- c1 ;; c2" := (bind c1 (fun x => c2))
  (at level 61, c1 at next level, right associativity).
Notation "c1 ;; c2" := (bind c1 (fun _ => c2))
  (at level 61, right associativity).

Definition print (l : linha) : Saida unit :=
  fun out => (out ++ [l], inr tt).

(** [r[k]] read as a number. *)
Definition item (r : resultado) (k : string) : Saida Q :=
  fun out =>
    match get r k with
    | None => (out, inl (KeyError k))
    | Some (Texto _) => (out, inl (NaoNumerico k))
    | Some (Num q) => (out, inr q)
    end.

Definition exibir_comparacao_2025
    (salario_bruto contribuicao_previdencia despesa_saude : Q)
    : Saida unit :=
  print [Lit (nl ++ repete "=" 70)] ;;
  print [Lit "COMPARACAO: DECLARACAO SIMPLIFICADA vs COMPLETA - 2025"] ;;
  print [Lit (repete "=" 70)] ;;
  let completa :=
    calcular_ir_2025_completo salario_bruto contribuicao_previdencia
      despesa_saude 0 in
  let simplificada :=
    calcular_ir_2025_simplificado salario_bruto contribuicao_previdencia in
  print [Lit (nl ++ "Dados de Entrada (mensal):")] ;;
  print [Lit "  Salario Bruto: R$ "; Moeda salario_bruto] ;;
  inss <- item completa "inss" ;;
  print [Lit "  INSS: R$ "; Moeda inss] ;;
  print [Lit "  Previdencia Privada (12%%): R$ ";
         Moeda contribuicao_previdencia] ;;
  print [Lit "  Saude Complementar: R$ "; Moeda despesa_saude] ;;
  base_calculo <- item completa "base_calculo" ;;
  print [Lit "  Base de Calculo IR: R$ "; Moeda base_calculo] ;;
  print [Lit nl; Lit (repete "-" 70)] ;;
  print [Lit "DECLARACAO COMPLETA:"] ;;
  print [Lit (repete "-" 70)] ;;
  deducoes <- item completa "deducoes_legais" ;;
  print [Lit "  Deducoes Legais (Saude): R$ "; Moeda deducoes] ;;
  base_c <- item completa "base_tributavel" ;;
  print [Lit "  Base Tributavel: R$ "; Moeda base_c] ;;
  ir_c <- item completa "ir_final" ;;
  print [Lit "  IR a Pagar: R$ "; Moeda ir_c] ;;
  print [Lit nl; Lit (repete "-" 70)] ;;
  print [Lit "DECLARACAO SIMPLIFICADA:"] ;;
  print [Lit (repete "-" 70)] ;;
  desconto <- item simplificada "desconto_simplificado" ;;
  print [Lit "  Desconto Simplificado (20%%): R$ "; Moeda desconto] ;;
  base_s <- item simplificada "base_tributavel" ;;
  print [Lit "  Base Tributavel: R$ "; Moeda base_s] ;;
  ir_s <- item simplificada "ir_final" ;;
  print [Lit "  IR a Pagar: R$ "; Moeda ir_s] ;;
  final_c <- item completa "ir_final" ;;
  final_s <- item simplificada "ir_final" ;;
  let diferenca := final_c - final_s in
  print [Lit nl; Lit (repete "-" 70)] ;;
  print [Lit "ANALISE:"] ;;
  print [Lit (repete "-" 70)] ;;
  if Py.lt (Qabs diferenca) 0.01 then
    print [Lit "  >> Praticamente igual! Escolha pela facilidade."]
  else if Py.gt diferenca 0 then
    print [Lit "  OK MAIS VANTAJOSA: SIMPLIFICADA"] ;;
    print [Lit "  Economia: R$ "; Moeda diferenca; Lit " por mes"] ;;
    print [Lit "  Economia Anual: R$ "; Moeda (diferenca * 12)]
  else
    print [Lit "  OK MAIS VANTAJOSA: COMPLETA"] ;;
    print [Lit "  Economia: R$ "; Moeda (Qabs diferenca); Lit " por mes"] ;;
    print [Lit "  Economia Anual: R$ "; Moeda (Qabs diferenca * 12)].

Definition exibir_comparacao_2026
    (salario_bruto contribuicao_previdencia despesa_saude : Q)
    : Saida unit :=
  print [Lit (nl ++ repete "=" 70)] ;;
  print [Lit "COMPARACAO: DECLARACAO SIMPLIFICADA vs COMPLETA - 2026 (COM REFORMA)"] ;;
  print [Lit (repete "=" 70)] ;;
  let completa :=
    calcular_ir_2026_completo salario_bruto contribuicao_previdencia
      despesa_saude 0 in
  let simplificada :=
    calcular_ir_2026_simplificado salario_bruto contribuicao_previdencia in
  print [Lit (nl ++ "Dados de Entrada (mensal):")] ;;
  print [Lit "  Salario Bruto: R$ "; Moeda salario_bruto] ;;
  inss <- item completa "inss" ;;
  print [Lit "  INSS: R$ "; Moeda inss] ;;
  print [Lit "  Previdencia Privada (12%%): R$ ";
         Moeda contribuicao_previdencia] ;;
  print [Lit "  Saude Complementar: R$ "; Moeda despesa_saude] ;;
  base_calculo <- item completa "base_calculo" ;;
  print [Lit "  Base de Calculo IR: R$ "; Moeda base_calculo] ;;
  print [Lit nl; Lit (repete "-" 70)] ;;
  print [Lit "DECLARACAO COMPLETA:"] ;;
  print [Lit (repete "-" 70)] ;;
  deducoes <- item completa "deducoes_legais" ;;
  print [Lit "  Deducoes Legais (Saude): R$ "; Moeda deducoes] ;;
  base_c <- item completa "base_tributavel" ;;
  print [Lit "  Base Tributavel: R$ "; Moeda base_c] ;;
  calc_c <- item completa "ir_calculado" ;;
  print [Lit "  IR Calculado: R$ "; Moeda calc_c] ;;
  red_c <- item completa "reducao" ;;
  print [Lit "  (-) Reducao da Reforma: R$ "; Moeda red_c] ;;
  ir_c <- item completa "ir_final" ;;
  print [Lit "  IR Final: R$ "; Moeda ir_c] ;;
  print [Lit nl; Lit (repete "-" 70)] ;;
  print [Lit "DECLARACAO SIMPLIFICADA:"] ;;
  print [Lit (repete "-" 70)] ;;
  desconto <- item simplificada "desconto_simplificado" ;;
  print [Lit "  Desconto Simplificado (20%%): R$ "; Moeda desconto] ;;
  base_s <- item simplificada "base_tributavel" ;;
  print [Lit "  Base Tributavel: R$ "; Moeda base_s] ;;
  calc_s <- item simplificada "ir_calculado" ;;
  print [Lit "  IR Calculado: R$ "; Moeda calc_s] ;;
  red_s <- item simplificada "reducao" ;;
  print [Lit "  (-) Reducao da Reforma: R$ "; Moeda red_s] ;;
  ir_s <- item simplificada "ir_final" ;;
  print [Lit "  IR Final: R$ "; Moeda ir_s] ;;
  final_c <- item completa "ir_final" ;;
  final_s <- item simplificada "ir_final" ;;
  let diferenca := final_c - final_s in
  print [Lit nl; Lit (repete "-" 70)] ;;
  print [Lit "ANALISE:"] ;;
  print [Lit (repete "-" 70)] ;;
  bt_c <- item completa "base_tributavel" ;;
  (if Py.le bt_c 5000 then
     print [Lit "  ISENCAO TOTAL (Completa): R$ 0,00"]
   else ret tt) ;;
  bt_s <- item simplificada "base_tributavel" ;;
  (if Py.le bt_s 5000 then
     print [Lit "  ISENCAO TOTAL (Simplificada): R$ 0,00"]
   else ret tt) ;;
  if Py.lt (Qabs diferenca) 0.01 then
    print [Lit (nl ++ "  >> Praticamente igual! Escolha pela facilidade.")]
  else if Py.gt diferenca 0 then
    print [Lit (nl ++ "  OK MAIS VANTAJOSA: SIMPLIFICADA")] ;;
    print [Lit "  Economia: R$ "; Moeda diferenca; Lit " por mes"]
  else
    print [Lit (nl ++ "  OK MAIS VANTAJOSA: COMPLETA")] ;;
    print [Lit "  Economia: R$ "; Moeda (Qabs diferenca); Lit " por mes"].

Definition exibir_tendencia_2025_2026
    (salario_bruto contribuicao_previdencia despesa_saude : Q)
    : Saida unit :=
  print [Lit (nl ++ repete "=" 70)] ;;
  print [Lit "TENDENCIA 2025 vs 2026 (IMPACTO DA REFORMA)"] ;;
  print [Lit (repete "=" 70)] ;;
  let compl_2025 :=
    calcular_ir_2025_completo salario_bruto contribuicao_previdencia
      despesa_saude 0 in
  let simpl_2025 :=
    calcular_ir_2025_simplificado salario_bruto contribuicao_previdencia in
  let compl_2026 :=
    calcular_ir_2026_completo salario_bruto contribuicao_previdencia
      despesa_saude 0 in
  let simpl_2026 :=
    calcular_ir_2026_simplificado salario_bruto contribuicao_previdencia in
  print [Lit nl; Esq 15 "Modelo"; Lit " | "; Esq 12 "2025"; Lit " | ";
         Esq 12 "2026"; Lit " | "; Esq 12 "Economia"] ;;
  print [Lit (repete "-" 55)] ;;
  c25 <- item compl_2025 "ir_final" ;;
  c26 <- item compl_2026 "ir_final" ;;
  c25' <- item compl_2025 "ir_final" ;;
  c26' <- item compl_2026 "ir_final" ;;
  print [Esq 15 "Completa"; Lit " | R$ "; MoedaDir 9 c25; Lit " | R$ ";
         MoedaDir 9 c26; Lit " | R$ "; MoedaDir 9 (c25' - c26')] ;;
  s25 <- item simpl_2025 "ir_final" ;;
  s26 <- item simpl_2026 "ir_final" ;;
  s25' <- item simpl_2025 "ir_final" ;;
  s26' <- item simpl_2026 "ir_final" ;;
  print [Esq 15 "Simplificada"; Lit " | R$ "; MoedaDir 9 s25; Lit " | R$ ";
         MoedaDir 9 s26; Lit " | R$ "; MoedaDir 9 (s25' - s26')] ;;
  ec25 <- item compl_2025 "ir_final" ;;
  ec26 <- item compl_2026 "ir_final" ;;
  let economia_total_compl := (ec25 - ec26) * 12 in
  es25 <- item simpl_2025 "ir_final" ;;
  es26 <- item simpl_2026 "ir_final" ;;
  let economia_total_simpl := (es25 - es26) * 12 in
  print [Lit (nl ++ "Economia Anual (2025 >> 2026):")] ;;
  print [Lit "  Completa: R$ "; Moeda economia_total_compl] ;;
  print [Lit "  Simplificada: R$ "; Moeda economia_total_simpl].

(** ** Sanity checks on concrete inputs *)

Example inss_1000 : calcular_inss 1000 == 75.
Proof. reflexivity. Qed.

Example ir_3000 : calcular_ir_progressivo 3000 == 68.56125.
Proof. reflexivity. Qed.

Example reducao_4000_200 : calcular_reducao_reforma_2026 4000 200 == 200.
Proof. reflexivity. Qed.

Example reducao_6000 : calcular_reducao_reforma_2026 6000 1000 == 156.44.
Proof. reflexivity. Qed.

Example reducao_8000 : calcular_reducao_reforma_2026 8000 1000 == 0.
Proof. reflexivity. Qed.

(** The scenario of the script's entry point. *)
Example inss_4161 : calcular_inss 4161.00 == 401.359.
Proof. reflexivity. Qed.

Example completo_2025_4161 :
  option_map Qred
    (campo (calcular_ir_2025_completo 4161.00 499.32 145.63 0) "ir_final")
  = Some 85.7649.
Proof. reflexivity. Qed.

Example completo_2026_4161 :
  option_map Qred
    (campo (calcular_ir_2026_completo 4161.00 499.32 145.63 0) "ir_final")
  = Some 0.
Proof. reflexivity. Qed.

(** ** Comparison tests as propositions *)

Lemma le_true a b : Py.le a b = true -> a <= b.
Proof. unfold Py.le. apply Qle_bool_iff. Qed.

Lemma le_false a b : Py.le a b = false -> b < a.
Proof.
  unfold Py.le. intros E. apply Qnot_le_lt. intros H.
  apply Qle_bool_iff in H. congruence.
Qed.

Lemma gt_true a b : Py.gt a b = true -> b < a.
Proof.
  unfold Py.gt. intros E. apply negb_true_iff in E.
  now apply le_false.
Qed.

Lemma gt_false a b : Py.gt a b = false -> a <= b.
Proof.
  unfold Py.gt. intros E. apply negb_false_iff in E.
  now apply le_true.
Qed.

Lemma lt_true a b : Py.lt a b = true -> a < b.
Proof. unfold Py.lt. intros E. now apply (gt_true b a). Qed.

Lemma lt_false a b : Py.lt a b = false -> b <= a.
Proof. unfold Py.lt. intros E. now apply (gt_false b a). Qed.

(** Split on the first comparison left in the goal, keeping its outcome as
    an order fact. *)
Ltac caso :=
  match goal with
  | |- context [Py.le ?a ?b] =>
      let E := fresh "E" in
      destruct (Py.le a b) eqn:E;
      [apply le_true in E | apply le_false in E]
  | |- context [Py.gt ?a ?b] =>
      let E := fresh "E" in
      destruct (Py.gt a b) eqn:E;
      [apply gt_true in E | apply gt_false in E]
  | |- context [Py.lt ?a ?b] =>
      let E := fresh "E" in
      destruct (Py.lt a b) eqn:E;
      [apply lt_true in E | apply lt_false in E]
  end.

Ltac casos := repeat caso.

(** ** Python's [min] and [max] against the library's *)

Lemma min_Qmin a b : Py.min a b = Qmin a b.
Proof.
  unfold Py.min, Qmin, GenericMinMax.gmin.
  caso.
  - rewrite Qgt_alt in E. now rewrite E.
  - destruct (a ?= b) eqn:C; try reflexivity.
    rewrite <- Qgt_alt in C. lra.
Qed.

Lemma max_Qmax a b : Py.max a b = Qmax a b.
Proof.
  unfold Py.max, Qmax, GenericMinMax.gmax.
  caso.
  - rewrite Qlt_alt in E. now rewrite E.
  - destruct (a ?= b) eqn:C; try reflexivity.
    rewrite <- Qlt_alt in C. lra.
Qed.

Lemma min_le_l a b : Py.min a b <= a.
Proof. unfold Py.min. caso; lra. Qed.

Lemma min_le_r a b : Py.min a b <= b.
Proof. unfold Py.min. caso; lra. Qed.

Lemma min_glb a b c : c <= a -> c <= b -> c <= Py.min a b.
Proof. unfold Py.min. caso; lra. Qed.

Lemma max_le_l a b : a <= Py.max a b.
Proof. unfold Py.max. caso; lra. Qed.

(** ** The INSS contribution *)

Ltac abre_inss :=
  unfold calcular_inss, inss_faixa1, inss_faixa2, inss_faixa3, inss_faixa4,
    inss_teto; cbv zeta.

(** Between two salaries the contribution grows, and by at most the top
    marginal rate times the difference. *)
Lemma inss_incremento s1 s2 :
  s1 <= s2 ->
  0 <= calcular_inss s2 - calcular_inss s1 <= 0.14 * (s2 - s1).
Proof.
  intros H. abre_inss. casos; lra.
Qed.

(** C9: the contribution has no jump at a tier boundary.  At each of
    1412.00, 2666.68, 4000.03 and 7786.02 the formula of the branch taken
    up to the boundary and the formula of the branch taken after it give
    the same amount, which is the value of [calcular_inss] there; and over
    any two salaries the contribution moves by at most 14%% of the distance
    between them. *)
Theorem inss_continuo_nas_faixas :
  (inss_faixa1 1412.00 == inss_faixa2 1412.00 /\
   calcular_inss 1412.00 = inss_faixa1 1412.00) /\
  (inss_faixa2 2666.68 == inss_faixa3 2666.68 /\
   calcular_inss 2666.68 = inss_faixa2 2666.68) /\
  (inss_faixa3 4000.03 == inss_faixa4 4000.03 /\
   calcular_inss 4000.03 = inss_faixa3 4000.03) /\
  (inss_faixa4 7786.02 == inss_teto /\
   calcular_inss 7786.02 = inss_faixa4 7786.02) /\
  forall s1 s2,
    Qabs (calcular_inss s2 - calcular_inss s1) <= 0.14 * Qabs (s2 - s1).
Proof.
  repeat split; try reflexivity.
  intros s1 s2.
  destruct (Qlt_le_dec s2 s1) as [L | L].
  - assert (L' : s2 <= s1) by lra.
    pose proof (inss_incremento s2 s1 L') as [I1 I2].
    rewrite (Qabs_neg (calcular_inss s2 - calcular_inss s1)) by lra.
    rewrite (Qabs_neg (s2 - s1)) by lra.
    lra.
  - pose proof (inss_incremento s1 s2 L) as [I1 I2].
    rewrite (Qabs_pos (calcular_inss s2 - calcular_inss s1)) by lra.
    rewrite (Qabs_pos (s2 - s1)) by lra.
    lra.
Qed.

(** C5: above the top boundary the contribution is frozen: every salary
    greater than 7786.02 pays exactly what a salary of 7786.02 pays. *)
Theorem inss_teto_acima_do_limite (s : Q) :
  7786.02 < s -> calcular_inss s = calcular_inss 7786.02.
Proof.
  intros H.
  replace (calcular_inss 7786.02) with inss_teto by reflexivity.
  unfold calcular_inss. casos; try reflexivity; lra.
Qed.

Lemma inss_teto_acima_do_limite_witness :
  7786.02 < 10000 /\ calcular_inss 10000 = calcular_inss 7786.02.
Proof.
  split; [reflexivity | apply (inss_teto_acima_do_limite 10000); reflexivity].
Defined.

(** C10: the contribution never decreases when the salary grows. *)
Theorem inss_monotono (s1 s2 : Q) :
  s1 <= s2 -> calcular_inss s1 <= calcular_inss s2.
Proof.
  intros H. pose proof (inss_incremento s1 s2 H). lra.
Qed.

Lemma inss_monotono_witness :
  3000 <= 9000 /\ calcular_inss 3000 <= calcular_inss 9000.
Proof.
  split; [discriminate | apply (inss_monotono 3000 9000); discriminate].
Defined.

(** ** The progressive tax *)

Lemma ir_nao_negativo base : 0 <= calcular_ir_progressivo base.
Proof. unfold calcular_ir_progressivo. casos; lra. Qed.

(** C6: a base of at most 2259.20, negative ones included, yields a tax
    of exactly zero. *)
Theorem ir_isento_ate_limite (base : Q) :
  base <= 2259.20 -> calcular_ir_progressivo base = 0.
Proof.
  intros H. unfold calcular_ir_progressivo. caso; [reflexivity | lra].
Qed.

Lemma ir_isento_ate_limite_witness :
  (-500) <= 2259.20 /\ calcular_ir_progressivo (-500) = 0.
Proof.
  split; [discriminate | apply (ir_isento_ate_limite (-500)); discriminate].
Defined.

(** C7: the progressive tax never decreases when the base grows. *)
Theorem ir_monotono (b1 b2 : Q) :
  b1 <= b2 -> calcular_ir_progressivo b1 <= calcular_ir_progressivo b2.
Proof.
  intros H. unfold calcular_ir_progressivo. casos; lra.
Qed.

Lemma ir_monotono_witness :
  2500 <= 6000 /\ calcular_ir_progressivo 2500 <= calcular_ir_progressivo 6000.
Proof.
  split; [discriminate | apply (ir_monotono 2500 6000); discriminate].
Defined.

(** ** The reform rebate *)

(** C3: the rebate by range of the base.  Up to 5000.00 it is the smaller
    of 312.89 and the computed tax; above 5000.00 and up to 7000.00 it is
    the phase-out line [1095.11 - 0.156445 * base], floored at zero and
    then capped by the computed tax; above 7000.00 it is zero. *)
Theorem reducao_por_faixa (base t : Q) :
  (base <= 5000.00 ->
   calcular_reducao_reforma_2026 base t = Qmin 312.89 t) /\
  (5000.00 < base /\ base <= 7000.00 ->
   calcular_reducao_reforma_2026 base t =
   Qmin (Qmax 0 (1095.11 - 0.156445 * base)) t) /\
  (7000.00 < base ->
   calcular_reducao_reforma_2026 base t = 0).
Proof.
  unfold calcular_reducao_reforma_2026. cbv zeta.
  rewrite !min_Qmin, max_Qmax.
  repeat split; intros H; casos; try reflexivity; lra.
Qed.

Lemma reducao_por_faixa_witness :
  calcular_reducao_reforma_2026 4000 200 = Qmin 312.89 200 /\
  calcular_reducao_reforma_2026 6000 1000 =
    Qmin (Qmax 0 (1095.11 - 0.156445 * 6000)) 1000 /\
  calcular_reducao_reforma_2026 8000 1000 = 0.
Proof.
  split; [| split].
  - apply (proj1 (reducao_por_faixa 4000 200)). discriminate.
  - apply (proj1 (proj2 (reducao_por_faixa 6000 1000))).
    split; [reflexivity | discriminate].
  - apply (proj2 (proj2 (reducao_por_faixa 8000 1000))). reflexivity.
Defined.

(** The rebate lies between zero and the tax it is computed from, as soon
    as that tax is not negative. *)
Lemma reducao_limites base t :
  0 <= t ->
  0 <= calcular_reducao_reforma_2026 base t <= t.
Proof.
  intros Ht. unfold calcular_reducao_reforma_2026, Py.min, Py.max.
  cbv zeta. casos; lra.
Qed.

(** ** The scenario calculators *)

(** C4: both 2026 calculators return a rebate between zero and the tax
    before the rebate, hence a final tax that is not negative; the
    progressive tax itself is never negative. *)
Theorem reducao_2026_limitada :
  (forall base, 0 <= calcular_ir_progressivo base) /\
  (forall salario_bruto previdencia saude dependentes,
     exists ir_calculado reducao ir_final,
       let r :=
         calcular_ir_2026_completo salario_bruto previdencia saude
           dependentes in
       campo r "ir_calculado" = Some ir_calculado /\
       campo r "reducao" = Some reducao /\
       campo r "ir_final" = Some ir_final /\
       0 <= reducao /\ reducao <= ir_calculado /\ 0 <= ir_final) /\
  (forall salario_bruto previdencia,
     exists ir_calculado reducao ir_final,
       let r := calcular_ir_2026_simplificado salario_bruto previdencia in
       campo r "ir_calculado" = Some ir_calculado /\
       campo r "reducao" = Some reducao /\
       campo r "ir_final" = Some ir_final /\
       0 <= reducao /\ reducao <= ir_calculado /\ 0 <= ir_final).
Proof.
  split; [exact ir_nao_negativo |].
  split; intros; do 3 eexists; cbv zeta;
    (split; [reflexivity |]); (split; [reflexivity |]);
    (split; [reflexivity |]);
    match goal with
    | |- context [calcular_reducao_reforma_2026 ?b ?t] =>
        pose proof (reducao_limites b t (ir_nao_negativo _)) as [L U]
    end; repeat split; lra.
Qed.

(** C1: for the same arguments the 2026 final tax is at most the 2025
    final tax, in the itemized pair and in the simplified pair alike; the
    rebate applied to a tax computed by the progressive table is never
    negative. *)
Theorem ir_2026_no_maximo_2025 :
  (forall base_rebate base,
     0 <= calcular_reducao_reforma_2026 base_rebate
            (calcular_ir_progressivo base)) /\
  (forall salario_bruto previdencia saude dependentes,
     exists final_2026 final_2025,
       campo (calcular_ir_2026_completo salario_bruto previdencia saude
                dependentes) "ir_final" = Some final_2026 /\
       campo (calcular_ir_2025_completo salario_bruto previdencia saude
                dependentes) "ir_final" = Some final_2025 /\
       final_2026 <= final_2025) /\
  (forall salario_bruto previdencia,
     exists final_2026 final_2025,
       campo (calcular_ir_2026_simplificado salario_bruto previdencia)
         "ir_final" = Some final_2026 /\
       campo (calcular_ir_2025_simplificado salario_bruto previdencia)
         "ir_final" = Some final_2025 /\
       final_2026 <= final_2025).
Proof.
  split.
  { intros b1 b2. apply (reducao_limites b1 _ (ir_nao_negativo b2)). }
  split; intros; do 2 eexists;
    (split; [reflexivity |]); (split; [reflexivity |]);
    match goal with
    | |- context [calcular_reducao_reforma_2026 ?b ?t] =>
        pose proof (reducao_limites b t (ir_nao_negativo _)) as [L U]
    end; lra.
Qed.

(** C2: a 2026 calculator differs from its 2025 counterpart only by the
    rebate.  The tax before the rebate reported for 2026 is the final tax
    (and the tax due) reported for 2025, the 2026 final tax is that amount
    less the rebate, and every remaining field (filing type, salary,
    contribution, pension, deduction or discount, both bases) is the same
    in the two years.  This holds for the itemized pair and for the
    simplified pair. *)
Theorem ano_2026_difere_so_pela_reducao :
  (forall salario_bruto previdencia saude dependentes,
     difere_so_pela_reducao
       (calcular_ir_2026_completo salario_bruto previdencia saude dependentes)
       (calcular_ir_2025_completo salario_bruto previdencia saude dependentes))
  /\
  (forall salario_bruto previdencia,
     difere_so_pela_reducao
       (calcular_ir_2026_simplificado salario_bruto previdencia)
       (calcular_ir_2025_simplificado salario_bruto previdencia)).
Proof.
  split; intros; unfold difere_so_pela_reducao; do 3 eexists;
    repeat (split; [reflexivity |]);
    cbn; repeat constructor; discriminate.
Qed.

(** C8: in both simplified calculators the discount is the smaller of
    20%% of [salario - INSS - previdencia] and 16754.34, the progressive
    tax is computed on that base less the discount, and when 20%% of the
    base is above 16754.34 the discount is exactly 16754.34. *)
Theorem desconto_simplificado_limitado (salario_bruto previdencia : Q) :
  let base_calculo :=
    salario_bruto - calcular_inss salario_bruto - previdencia in
  desconto_conforme
    (calcular_ir_2025_simplificado salario_bruto previdencia)
    "ir_devido" base_calculo /\
  desconto_conforme
    (calcular_ir_2026_simplificado salario_bruto previdencia)
    "ir_calculado" base_calculo.
Proof.
  intros base_calculo.
  assert (D : forall bc : Q,
             let d := if Py.gt (bc * 0.20) 16754.34
                      then 16754.34 else bc * 0.20 in
             d == Qmin (0.20 * bc) 16754.34 /\
             (16754.34 < 0.20 * bc -> d = 16754.34)).
  { intros bc d. subst d. caso.
    - split; [| reflexivity].
      rewrite Q.min_r by lra. reflexivity.
    - split; [| lra].
      rewrite Q.min_l by lra. lra. }
  destruct (D base_calculo) as [D1 D2].
  split; eexists;
    (split; [reflexivity |]); (split; [reflexivity |]);
    (split; [exact D1 |]); (split; [reflexivity |]);
    (split; [reflexivity | exact D2]).
Qed.

Lemma desconto_simplificado_limitado_witness :
  campo (calcular_ir_2025_simplificado 100000 0) "desconto_simplificado"
  = Some 16754.34.
Proof.
  destruct (desconto_simplificado_limitado 100000 0)
    as [[d (_ & Hd & _ & _ & _ & Hteto)] _].
  rewrite Hd. f_equal. apply Hteto. reflexivity.
Defined.

(** ** Further properties of the bracket engine *)






(** Between two bases the progressive tax grows, and by at most the top
    marginal rate times the difference. *)
Lemma ir_incremento b1 b2 :
  b1 <= b2 ->
  0 <= calcular_ir_progressivo b2 - calcular_ir_progressivo b1
    <= 0.275 * (b2 - b1).
Proof.
  intros H. unfold calcular_ir_progressivo. casos; lra.
Qed.



(** ** Further properties of the reform rebate *)

(** The rebate grows with the tax it is computed from, and, for a tax that
    is not negative, it shrinks as the base grows. *)
Theorem reducao_monotona (b1 b2 t1 t2 : Q) :
  (t1 <= t2 ->
   calcular_reducao_reforma_2026 b1 t1 <= calcular_reducao_reforma_2026 b1 t2)
  /\
  (0 <= t1 -> b1 <= b2 ->
   calcular_reducao_reforma_2026 b2 t1 <= calcular_reducao_reforma_2026 b1 t1).
Proof.
  unfold calcular_reducao_reforma_2026, Py.min, Py.max. cbv zeta.
  split; intros; casos; lra.
Qed.

Lemma reducao_monotona_witness :
  calcular_reducao_reforma_2026 4000 100 <=
    calcular_reducao_reforma_2026 4000 200 /\
  calcular_reducao_reforma_2026 6000 100 <=
    calcular_reducao_reforma_2026 4000 100.
Proof.
  split.
  - apply (proj1 (reducao_monotona 4000 6000 100 200)). discriminate.
  - apply (proj2 (reducao_monotona 4000 6000 100 200)); discriminate.
Defined.

(** The rebate steps down just above a base of 5000.00: for a tax of at
    least 312.89 it is 312.89 on every base up to 5000.00 and strictly
    below 312.885 on every base above it.  No rebate ever exceeds
    312.89. *)
Theorem reducao_degrau_em_5000 (base t : Q) :
  calcular_reducao_reforma_2026 base t <= 312.89 /\
  (312.89 <= t -> base <= 5000.00 ->
   calcular_reducao_reforma_2026 base t == 312.89) /\
  (5000.00 < base -> calcular_reducao_reforma_2026 base t < 312.885).
Proof.
  unfold calcular_reducao_reforma_2026, Py.min, Py.max. cbv zeta.
  split; [| split; intros]; casos; lra.
Qed.

Lemma reducao_degrau_em_5000_witness :
  calcular_reducao_reforma_2026 5000 400 == 312.89 /\
  calcular_reducao_reforma_2026 5000.01 400 < 312.885.
Proof.
  split.
  - apply (proj1 (proj2 (reducao_degrau_em_5000 5000 400))); discriminate.
  - apply (proj2 (proj2 (reducao_degrau_em_5000 5000.01 400))). reflexivity.
Defined.

(** For a positive tax the rebate is zero exactly when the phase-out line
    [1095.11 - 0.156445 * base] has reached zero, which happens a little
    before 7000.00. *)
Theorem reducao_nula (base t : Q) :
  0 < t ->
  (calcular_reducao_reforma_2026 base t == 0 <->
   1095.11 <= 0.156445 * base).
Proof.
  intros Ht.
  unfold calcular_reducao_reforma_2026, Py.min, Py.max. cbv zeta.
  split; casos; intros H; lra.
Qed.

Lemma reducao_nula_witness :
  calcular_reducao_reforma_2026 6999.97 500 == 0.
Proof.
  apply (reducao_nula 6999.97 500); [reflexivity | discriminate].
Defined.

(** As a function of the base alone, the 2026 final tax (progressive tax
    less the rebate on it) never decreases, and between two bases it grows
    by at most 43.1445%% of their distance plus the step of 0.005 at
    5000.00. *)
Lemma ir_final_2026_incremento b1 b2 :
  b1 <= b2 ->
  let final b :=
    calcular_ir_progressivo b
    - calcular_reducao_reforma_2026 b (calcular_ir_progressivo b) in
  0 <= final b2 - final b1 <= 0.431445 * (b2 - b1) + 0.005.
Proof.
  intros H. cbv zeta.
  unfold calcular_reducao_reforma_2026, calcular_ir_progressivo,
    Py.min, Py.max.
  cbv zeta. repeat (caso; try (exfalso; lra)); lra.
Qed.

(** In 2026 the final tax on a base is zero exactly up to a base of
    4336.2555... (390263/90), where the progressive tax reaches 312.89:
    the rebate cancels the whole tax there and not up to 5000.00. *)
Theorem ir_final_2026_nulo (base : Q) :
  calcular_ir_progressivo base
  - calcular_reducao_reforma_2026 base (calcular_ir_progressivo base) == 0
  <-> base <= 390263 # 90.
Proof.
  unfold calcular_reducao_reforma_2026, calcular_ir_progressivo,
    Py.min, Py.max.
  cbv zeta. split; casos; intros H; lra.
Qed.

(** ** Further properties of the scenario calculators *)

Lemma ir_cresce b1 b2 :
  b1 <= b2 -> calcular_ir_progressivo b1 <= calcular_ir_progressivo b2.
Proof. intros H. pose proof (ir_incremento b1 b2 H). lra. Qed.

Lemma ir_final_2026_cresce b1 b2 :
  b1 <= b2 ->
  calcular_ir_progressivo b1
  - calcular_reducao_reforma_2026 b1 (calcular_ir_progressivo b1)
  <= calcular_ir_progressivo b2
     - calcular_reducao_reforma_2026 b2 (calcular_ir_progressivo b2).
Proof.
  intros H. pose proof (ir_final_2026_incremento b1 b2 H) as I.
  cbv beta zeta in I. lra.
Qed.

(** The taxable base of the simplified method grows with the base it is
    computed from, and never faster. *)
Lemma base_simplificada_incremento bc1 bc2 :
  bc1 <= bc2 ->
  0 <= (bc2 - (if Py.gt (bc2 * 0.20) 16754.34
               then 16754.34 else bc2 * 0.20))
       - (bc1 - (if Py.gt (bc1 * 0.20) 16754.34
                 then 16754.34 else bc1 * 0.20))
    <= bc2 - bc1.
Proof. intros H. casos; lra. Qed.

Ltac abre_campos :=
  unfold campo_le; do 2 eexists;
  split; [reflexivity |]; split; [reflexivity |].

(** A higher gross salary never lowers the final tax, the other arguments
    being the same, in any of the four calculators. *)
Theorem imposto_cresce_com_salario
    (s1 s2 previdencia saude : Q) (dependentes : Z) :
  s1 <= s2 ->
  campo_le "ir_final"
    (calcular_ir_2025_completo s1 previdencia saude dependentes)
    (calcular_ir_2025_completo s2 previdencia saude dependentes) /\
  campo_le "ir_final"
    (calcular_ir_2025_simplificado s1 previdencia)
    (calcular_ir_2025_simplificado s2 previdencia) /\
  campo_le "ir_final"
    (calcular_ir_2026_completo s1 previdencia saude dependentes)
    (calcular_ir_2026_completo s2 previdencia saude dependentes) /\
  campo_le "ir_final"
    (calcular_ir_2026_simplificado s1 previdencia)
    (calcular_ir_2026_simplificado s2 previdencia).
Proof.
  intros H.
  pose proof (inss_incremento s1 s2 H) as I.
  assert (B : s1 - calcular_inss s1 - previdencia
              <= s2 - calcular_inss s2 - previdencia) by lra.
  pose proof (base_simplificada_incremento _ _ B) as S.
  repeat split; abre_campos.
  - apply ir_cresce. lra.
  - apply ir_cresce. lra.
  - apply ir_final_2026_cresce. lra.
  - apply ir_final_2026_cresce. lra.
Qed.

Lemma imposto_cresce_com_salario_witness :
  campo_le "ir_final"
    (calcular_ir_2026_simplificado 5000 0)
    (calcular_ir_2026_simplificado 8000 0).
Proof.
  apply (imposto_cresce_com_salario 5000 8000 0 0 0). discriminate.
Defined.

(** Within one year the filing method with the larger deduction never
    pays more: when the itemized deductions are at least the simplified
    discount the itemized final tax is at most the simplified one, and the
    other way round. *)
Theorem maior_deducao_menor_imposto
    (salario_bruto previdencia saude : Q) (dependentes : Z) :
  exists deducoes desconto,
    campo (calcular_ir_2025_completo salario_bruto previdencia saude
             dependentes) "deducoes_legais" = Some deducoes /\
    campo (calcular_ir_2025_simplificado salario_bruto previdencia)
      "desconto_simplificado" = Some desconto /\
    (desconto <= deducoes ->
     campo_le "ir_final"
       (calcular_ir_2025_completo salario_bruto previdencia saude dependentes)
       (calcular_ir_2025_simplificado salario_bruto previdencia) /\
     campo_le "ir_final"
       (calcular_ir_2026_completo salario_bruto previdencia saude dependentes)
       (calcular_ir_2026_simplificado salario_bruto previdencia)) /\
    (deducoes <= desconto ->
     campo_le "ir_final"
       (calcular_ir_2025_simplificado salario_bruto previdencia)
       (calcular_ir_2025_completo salario_bruto previdencia saude dependentes)
     /\
     campo_le "ir_final"
       (calcular_ir_2026_simplificado salario_bruto previdencia)
       (calcular_ir_2026_completo salario_bruto previdencia saude
          dependentes)).
Proof.
  do 2 eexists. split; [reflexivity |]. split; [reflexivity |].
  split; intros H; split; abre_campos;
    first [apply ir_cresce | apply ir_final_2026_cresce]; lra.
Qed.

Lemma maior_deducao_menor_imposto_witness :
  campo_le "ir_final"
    (calcular_ir_2025_completo 4161.00 499.32 1000 0)
    (calcular_ir_2025_simplificado 4161.00 499.32).
Proof.
  destruct (maior_deducao_menor_imposto 4161.00 499.32 1000 0)
    as (ded & desc & Hded & Hdesc & Hmaior & _).
  apply Hmaior.
  vm_compute in Hded. vm_compute in Hdesc.
  injection Hded as <-. injection Hdesc as <-. discriminate.
Defined.








(** ** The reporting functions *)

(** Run the printing of a reporting function, leaving the amounts as they
    are. *)
Ltac executa :=
  lazy -[calcular_inss calcular_ir_progressivo calcular_reducao_reforma_2026
         Qplus Qminus Qmult Qopp Qabs inject_Z Py.le Py.lt Py.gt
         Qle Qlt Qeq In iff].

(** None of the three reporting functions raises: every key they read is
    present, with a numeric value, in the dictionaries the calculators
    return.  This holds whatever was printed before the call. *)
Theorem exibir_sem_excecao (s p d : Q) (out : list linha) :
  snd (exibir_comparacao_2025 s p d out) = inr tt /\
  snd (exibir_comparacao_2026 s p d out) = inr tt /\
  snd (exibir_tendencia_2025_2026 s p d out) = inr tt.
Proof.
  split; [| split].
  - unfold exibir_comparacao_2025. executa.
    casos; reflexivity.
  - unfold exibir_comparacao_2026. executa.
    casos; executa; casos; reflexivity.
  - reflexivity.
Qed.

Lemma Qabs_casos (x : Q) :
  (0 <= x /\ Qabs x == x) \/ (x <= 0 /\ Qabs x == - x).
Proof.
  destruct (Qlt_le_dec x 0) as [L | L].
  - right. split; [lra |]. apply Qabs_neg. lra.
  - left. split; [lra |]. now apply Qabs_pos.
Qed.

(** Decide whether a given line is among the printed ones. *)
Ltac fora_da_saida H :=
  cbv [In] in H;
  repeat (destruct H as [H | H]; [try discriminate H |]);
  try contradiction.

Ltac na_saida :=
  cbv [In]; repeat (first [left; reflexivity | right]).


(** The verdict printed by [exibir_comparacao_2025] is right.  The
    simplified method is named the better one exactly when its final tax is
    lower by at least 0.01, the itemized one exactly when its final tax is
    lower by at least 0.01, and the two are called practically equal
    exactly when they differ by less than 0.01; a monthly saving, when
    printed, is the distance between the two final taxes and is at least
    0.01. *)
Theorem veredito_2025 (s p d : Q) :
  let out := fst (exibir_comparacao_2025 s p d []) in
  exists final_c final_s,
    campo (calcular_ir_2025_completo s p d 0) "ir_final" = Some final_c /\
    campo (calcular_ir_2025_simplificado s p) "ir_final" = Some final_s /\
    (In [Lit "  OK MAIS VANTAJOSA: SIMPLIFICADA"] out
     <-> 0.01 <= final_c - final_s) /\
    (In [Lit "  OK MAIS VANTAJOSA: COMPLETA"] out
     <-> 0.01 <= final_s - final_c) /\
    (In [Lit "  >> Praticamente igual! Escolha pela facilidade."] out
     <-> Qabs (final_c - final_s) < 0.01) /\
    (forall e,
       In [Lit "  Economia: R$ "; Moeda e; Lit " por mes"] out ->
       0.01 <= e /\ e == Qabs (final_c - final_s)).
Proof.
  intros out. subst out.
  do 2 eexists. split; [reflexivity |]. split; [reflexivity |].
  unfold exibir_comparacao_2025. executa.
  match goal with
  | |- context [Py.lt (Qabs (?a - ?b)) 0.01] =>
      generalize a, b; intros fc fs
  end.
  destruct (Qabs_casos (fc - fs)) as [[S A] | [S A]];
  (destruct (Py.lt (Qabs (fc - fs)) 0.01) eqn:E1;
   [apply lt_true in E1
   | apply lt_false in E1;
     destruct (Py.gt (fc - fs) 0) eqn:E2;
     [apply gt_true in E2 | apply gt_false in E2]]);
  executa.
  all: (split; [split; intros H; [fora_da_saida H; lra | try na_saida; lra] |]).
  all: (split; [split; intros H; [fora_da_saida H; lra | try na_saida; lra] |]).
  all: (split; [split; intros H; [fora_da_saida H; lra | try na_saida; lra] |]).
  all: intros e H; fora_da_saida H.
  all: apply (f_equal (fun l => match l with
                               | _ :: Moeda q :: _ => q
                               | _ => 0
                               end)) in H;
       cbv beta iota in H; subst e; split; lra.
Qed.

(** As [executa], keeping appends and projections folded. *)
Ltac executa_app :=
  lazy -[calcular_inss calcular_ir_progressivo calcular_reducao_reforma_2026
         Qplus Qminus Qmult Qopp Qabs inject_Z Py.le Py.lt Py.gt
         Qle Qlt Qeq In iff app fst not].

(** The verdict printed by [exibir_comparacao_2026] is right, as in 2025:
    a method is named the better one exactly when its final tax is lower
    by at least 0.01, and the two are called practically equal exactly
    when they differ by less than 0.01.  The line announcing a total
    exemption is printed for a method exactly when its taxable base is at
    most 5000. *)
Theorem veredito_2026 (s p d : Q) :
  let out := fst (exibir_comparacao_2026 s p d []) in
  exists final_c final_s base_c base_s,
    campo (calcular_ir_2026_completo s p d 0) "ir_final" = Some final_c /\
    campo (calcular_ir_2026_simplificado s p) "ir_final" = Some final_s /\
    campo (calcular_ir_2026_completo s p d 0) "base_tributavel"
      = Some base_c /\
    campo (calcular_ir_2026_simplificado s p) "base_tributavel"
      = Some base_s /\
    (In [Lit (nl ++ "  OK MAIS VANTAJOSA: SIMPLIFICADA")] out
     <-> 0.01 <= final_c - final_s) /\
    (In [Lit (nl ++ "  OK MAIS VANTAJOSA: COMPLETA")] out
     <-> 0.01 <= final_s - final_c) /\
    (In [Lit (nl ++ "  >> Praticamente igual! Escolha pela facilidade.")] out
     <-> Qabs (final_c - final_s) < 0.01) /\
    (In [Lit "  ISENCAO TOTAL (Completa): R$ 0,00"] out
     <-> base_c <= 5000) /\
    (In [Lit "  ISENCAO TOTAL (Simplificada): R$ 0,00"] out
     <-> base_s <= 5000).
Proof.
  intros out. subst out.
  do 4 eexists. do 4 (split; [reflexivity |]).
  unfold exibir_comparacao_2026. executa_app.
  match goal with
  | |- context [Py.lt (Qabs (?a - ?b)) 0.01] =>
      generalize a, b; intros fc fs
  end.
  match goal with
  | |- context [(In [Lit "  ISENCAO TOTAL (Completa): R$ 0,00"] _
                 <-> ?x <= 5000) /\
                (In _ _ <-> ?y <= 5000)] =>
      generalize x, y; intros bc bs
  end.
  match goal with
  | |- context [(if Py.le bc 5000 then _ else _) ?pre] => set (antes := pre)
  end.
  repeat match goal with
  | |- context [In ?L (fst _)] =>
      lazymatch goal with
      | _ : ~ In L antes |- _ => fail
      | _ =>
          let N := fresh "N" in
          assert (N : ~ In L antes)
            by (unfold antes; cbv [app]; intros H; fora_da_saida H)
      end
  end.
  clearbody antes.
  pose proof (Qabs_casos (fc - fs)) as A.
  (destruct (Py.le bc 5000) eqn:B1;
   [apply le_true in B1 | apply le_false in B1]);
  (destruct (Py.le bs 5000) eqn:B2;
   [apply le_true in B2 | apply le_false in B2]);
  (destruct (Py.lt (Qabs (fc - fs)) 0.01) eqn:E1;
   [apply lt_true in E1
   | apply lt_false in E1;
     destruct (Py.gt (fc - fs) 0) eqn:E2;
     [apply gt_true in E2 | apply gt_false in E2]]);
  executa_app.
  all: repeat match goal with
       | |- _ /\ _ => split
       | |- _ <-> _ => split
       end; intros Hin.
  all: cbv beta iota delta [fst] in *; rewrite ?in_app_iff in *;
       cbn [In] in *.
  all: first [ solve [auto 8]
             | destruct A as [[S A] | [S A]]; solve [lra]
             | idtac ].
  all: repeat match goal with
       | H : _ \/ _ |- _ => destruct H as [H | H]
       end; try contradiction; try discriminate;
       repeat match goal with
       | H : _ /\ _ |- _ => destruct H
       end; lra.
Qed.




(** The trend report shows, for each filing method, the 2025 final tax,
    the 2026 final tax and their difference, then twelve times that
    difference as the yearly saving; and no amount it prints is negative:
    the reform never shows as a loss. *)
Theorem tendencia_economia (s p d : Q) :
  let out := fst (exibir_tendencia_2025_2026 s p d []) in
  exists c25 c26 s25 s26,
    campo (calcular_ir_2025_completo s p d 0) "ir_final" = Some c25 /\
    campo (calcular_ir_2026_completo s p d 0) "ir_final" = Some c26 /\
    campo (calcular_ir_2025_simplificado s p) "ir_final" = Some s25 /\
    campo (calcular_ir_2026_simplificado s p) "ir_final" = Some s26 /\
    In [Esq 15 "Completa"; Lit " | R$ "; MoedaDir 9 c25; Lit " | R$ ";
        MoedaDir 9 c26; Lit " | R$ "; MoedaDir 9 (c25 - c26)] out /\
    In [Esq 15 "Simplificada"; Lit " | R$ "; MoedaDir 9 s25; Lit " | R$ ";
        MoedaDir 9 s26; Lit " | R$ "; MoedaDir 9 (s25 - s26)] out /\
    In [Lit "  Completa: R$ "; Moeda ((c25 - c26) * 12)] out /\
    In [Lit "  Simplificada: R$ "; Moeda ((s25 - s26) * 12)] out /\
    (forall l q,
       In l out ->
       In (Moeda q) l \/ (exists n, In (MoedaDir n q) l) ->
       0 <= q).
Proof.
  intros out. subst out.
  do 4 eexists. do 4 (split; [reflexivity |]).
  unfold exibir_tendencia_2025_2026. executa.
  repeat match goal with
  | |- context [calcular_reducao_reforma_2026 ?b
                  (calcular_ir_progressivo ?b)] =>
      lazymatch goal with
      | _ : 0 <= calcular_reducao_reforma_2026 b _ <= _ |- _ => fail
      | _ =>
          pose proof (reducao_limites b _ (ir_nao_negativo b));
          pose proof (ir_nao_negativo b)
      end
  end.
  do 4 (split; [na_saida |]).
  intros l q Hl Hq.
  cbv [In] in Hl.
  repeat (destruct Hl as [Hl | Hl]; [subst l |]); try contradiction;
    cbv [In] in Hq;
    (destruct Hq as [Hq | [n Hq]];
     repeat (destruct Hq as [Hq | Hq]; [try discriminate Hq |]);
     try contradiction);
    apply (f_equal (fun f => match f with
                             | Moeda x => x
                             | MoedaDir _ x => x
                             | _ => 0
                             end)) in Hq;
    cbv beta iota in Hq; subst q; lra.
Qed.
